(** * python_bridge.py: the command-line bridge to the intelligent agent

    A shallow embedding of [src/python_bridge.py].  One run of the script
    receives a command name and positional arguments, calls at most one
    handler, and prints one JSON document on standard output.

    Conventions of the embedding:
    - a Python [str] is a [string] holding its UTF-8 bytes;
    - a Python [dict] with string keys is an association list in insertion
      order;
    - a statement is a computation in the monad [M]: it reads and writes
      the process state (the module global [agent] and the trace of
      observable events) and returns a value, raises an [Exception]
      (kept as the text [str(e)]), or is left by an exception outside
      [Exception], which no [except Exception] of the script catches;
    - the agent, its construction and the import of its modules belong to
      other files of the project and are inputs of the model ([Env],
      [IntelligentAgent]); what the agent answers is any Python object
      ([Answer]), a [str] when the agent keeps to its interface. *)

From Stdlib Require Import String Ascii List Bool Arith ZArith Lia DecimalString.
Import ListNotations.
Open Scope string_scope.

(** ** Python strings *)

Module PyStr.

(** ["\n"] *)
Definition nl : string := String (ascii_of_nat 10) "".

(** [str(n)] for a non-negative [int]. *)
Definition of_nat (n : nat) : string := NilZero.string_of_uint (Nat.to_uint n).

(** [str(z)] for an [int]. *)
Definition of_Z (z : Z) : string := NilZero.string_of_int (Z.to_int z).

(** [sep.join(parts)] *)
Definition join (sep : string) (parts : list string) : string :=
  String.concat sep parts.

Definition is_lower (c : ascii) : bool :=
  ((97 <=? nat_of_ascii c) && (nat_of_ascii c <=? 122))%nat.

Definition is_upper (c : ascii) : bool :=
  ((65 <=? nat_of_ascii c) && (nat_of_ascii c <=? 90))%nat.

Definition to_upper (c : ascii) : ascii := ascii_of_nat (nat_of_ascii c - 32).
Definition to_lower (c : ascii) : ascii := ascii_of_nat (nat_of_ascii c + 32).

(** [s.title()] on ASCII text: a cased character that follows an uncased
    one is put in upper case, a cased character that follows a cased one
    in lower case. *)
Fixpoint title_from (previous_is_cased : bool) (s : string) : string :=
  match s with
  | EmptyString => EmptyString
  | String c rest =>
      if is_lower c then
        String (if previous_is_cased then c else to_upper c) (title_from true rest)
      else if is_upper c then
        String (if previous_is_cased then to_lower c else c) (title_from true rest)
      else String c (title_from false rest)
  end.

Definition title_ascii (s : string) : string := title_from false s.

(** Every byte is below 128: the text is ASCII. *)
Fixpoint is_ascii (s : string) : bool :=
  match s with
  | EmptyString => true
  | String c rest => (nat_of_ascii c <? 128)%nat && is_ascii rest
  end.

(** [s.title()].  On text with a character outside ASCII the casing is
    the interpreter's, from its Unicode tables: [unicode_title] stands
    for it and nothing is assumed of it. *)
Definition title (unicode_title : string -> string) (s : string) : string :=
  if is_ascii s then title_ascii s else unicode_title s.

(** A byte [10xxxxxx] continues the character begun before it. *)
Definition is_continuation (c : ascii) : bool :=
  ((128 <=? nat_of_ascii c) && (nat_of_ascii c <=? 191))%nat.

(** [s[:n]]: the first [n] characters (code points) of [s]. *)
Fixpoint slice_to (n : nat) (s : string) : string :=
  match s with
  | EmptyString => EmptyString
  | String c rest =>
      if is_continuation c then String c (slice_to n rest)
      else match n with
           | O => EmptyString
           | S n' => String c (slice_to n' rest)
           end
  end.

(** [needle in haystack] *)
Fixpoint contains (needle haystack : string) : bool :=
  String.prefix needle haystack ||
  match haystack with
  | EmptyString => false
  | String _ rest => contains needle rest
  end.

End PyStr.

(** ** JSON documents and Results *)

(** The values of the dicts the script builds.  [JOther] and [JRefused]
    are what an answer of the agent that is no [str] may be: a value
    [json.dumps] writes as [text] (a number, null, a list), or an object
    it refuses with [TypeError(why)] (bytes, a set, an instance). *)
#[warnings="-register-all"] Inductive Json : Type :=
| JString (s : string)
| JBool (b : bool)
| JObject (fields : list (string * Json))
| JOther (text : string)
| JRefused (why : string).

(** The dict a handler returns and [main] prints. *)
Definition Result : Type := list (string * Json).

(** The first value [json.dumps] refuses, if there is one. *)
Fixpoint refusal (j : Json) : option string :=
  match j with
  | JRefused why => Some why
  | JObject fields =>
      (fix first (l : list (string * Json)) : option string :=
         match l with
         | [] => None
         | (_, v) :: rest =>
             match refusal v with
             | Some why => Some why
             | None => first rest
             end
         end) fields
  | _ => None
  end.

Module Dict.

(** [d.get(key)] *)
Fixpoint get {V : Type} (key : string) (d : list (string * V)) : option V :=
  match d with
  | [] => None
  | (k, v) :: rest => if String.eqb k key then Some v else get key rest
  end.


(** [d[key] = v]: replaces the value of a key already there, appends a
    new key at the end. *)
Fixpoint set {V : Type} (key : string) (v : V) (d : list (string * V))
  : list (string * V) :=
  match d with
  | [] => [(key, v)]
  | (k, w) :: rest =>
      if String.eqb k key then (k, v) :: rest else (k, w) :: set key v rest
  end.

(** [list(d.keys())] *)
Definition keys {V : Type} (d : list (string * V)) : list string := map fst d.

End Dict.

(** ** The collaborators *)

(** An exception outside [Exception]: SystemExit, KeyboardInterrupt,
    asyncio.CancelledError.  It is kept as the name of its class and the
    status the process ends with when nothing catches it. *)
Record Signal : Type := {
  signal_class : string;
  signal_status : nat
}.

(** What a call gives back: a value, an [Exception] with text [str(e)],
    or an exception outside [Exception]. *)
Inductive Outcome (A : Type) : Type :=
| Returned (a : A)
| Raised (description : string)
| Escaped (signal : Signal).

Arguments Returned {A} a.
Arguments Raised {A} description.
Arguments Escaped {A} signal.

(** [json.dumps(result)]: the document, or the TypeError of the first
    value that cannot be written. *)
Definition json_dumps (result : Result) : Outcome Result :=
  match refusal (JObject result) with
  | Some why => Raised why
  | None => Returned result
  end.

(** An answer of the agent.  [Str s] is the [str] its interface promises.
    Any other object is given by the two things the script does with it:
    [sliced] is what formatting [response[:100]] gives (the text, or the
    exception of the subscript), [value] is what the object is to
    [json.dumps]. *)
Inductive Answer : Type :=
| Str (s : string)
| Obj (sliced : Outcome string) (value : Json).

(** [response[:100]] in an f-string. *)
Definition sliced_of (response : Answer) : Outcome string :=
  match response with
  | Str s => Returned (PyStr.slice_to 100 s)
  | Obj sliced _ => sliced
  end.

(** The answer as a value of the Result. *)
Definition value_of (response : Answer) : Json :=
  match response with
  | Str s => JString s
  | Obj _ value => value
  end.

(** A value interpolated in an f-string: [{v}] writes [format v]. *)
Inductive Scalar : Type :=
| SInt (z : Z)            (* an int *)
| SStr (s : string)       (* a str *)
| SOther (shown : string) (* any other object (a float, a timestamp),
                             kept as the text [str] gives for it *).

Definition format (v : Scalar) : string :=
  match v with
  | SInt z => PyStr.of_Z z
  | SStr s => s
  | SOther shown => shown
  end.

Record Summary : Type := {
  total_messages : Scalar;
  user_messages : Scalar;
  assistant_messages : Scalar;
  conversation_duration_hours : Scalar;
  conversation_start : Scalar;
  last_activity : Scalar
}.

Record Sentiment : Type := {
  overall_sentiment : string;
  engagement_level : string;
  question_count : Scalar
}.

Record Message : Type := {
  role : string;
  timestamp : Scalar;
  content : Scalar
}.

(** The dict [conversation_memory.analyze_conversation] returns.  A key of
    the dict may be missing ([None]): reading it raises [KeyError].  The
    dicts and lists under the keys ([Summary], [Sentiment], [Message])
    are taken whole, as the interface of the memory gives them. *)
Record Analysis : Type := {
  has_conversation : option bool;
  summary : option Summary;
  topics : option (list string);
  sentiment : option Sentiment;
  insights : option (list string);
  recent_messages : option (list Message)
}.

(** An [IntelligentAgent] object, by what the bridge calls on it.  The
    object is true in a boolean test, as an instance of a class without
    [__bool__] or [__len__] is.  Its three operations that answer the user
    give back any object; the analysis of the conversation memory is
    taken in the shape its interface gives it. *)
Record IntelligentAgent : Type := {
  agent_id : Z;                                                (* id(agent) *)
  agent_process_message : string -> string -> Outcome Answer;  (* awaited *)
  agent_clear_conversation : string -> Outcome Answer;
  agent_get_help_message : Outcome Answer;                     (* awaited *)
  memory_analyze_conversation : string -> Outcome Analysis
}.

(** What one run of the script gets from outside: the project's modules
    and the interpreter's Unicode tables. *)
Record Env : Type := {
  import_modules : Outcome unit;           (* the two imports at the top;
                                              [Raised] is an ImportError, the
                                              one exception caught there *)
  new_IntelligentAgent : Outcome IntelligentAgent;  (* IntelligentAgent() *)
  unicode_title : string -> string         (* str.title() outside ASCII *)
}.

(** ** Process state and observable events *)

Inductive Event : Type :=
| Construct                       (* IntelligentAgent() is called *)
| LoopNew                         (* asyncio.new_event_loop(), set_event_loop *)
| LoopClose                       (* loop.close() *)
| Call (method : string) (arguments : list string)  (* a method of the agent *)
| Stderr (line : string)          (* print(..., file=sys.stderr) *)
| StderrJson (document : Result)  (* print(json.dumps(...), file=sys.stderr) *)
| Stdout (line : string)          (* print(...) *)
| StdoutJson (document : Result)  (* print(json.dumps(...)) *).

Record Proc : Type := {
  agent : option IntelligentAgent;   (* the global [agent]; [None] is None *)
  trace : list Event
}.

(** The state in which the script starts: [agent = None]. *)
Definition initial : Proc := {| agent := None; trace := [] |}.

(** ** The monad of statements *)

Definition M (A : Type) : Type := Proc -> Outcome A * Proc.

Definition ret {A : Type} (a : A) : M A := fun st => (Returned a, st).

Definition bind {A B : Type} (m : M A) (f : A -> M B) : M B :=
  fun st =>
    match m st with
    | (Returned a, st') => f a st'
    | (Raised e, st') => (Raised e, st')
    | (Escaped s, st') => (Escaped s, st')
    end.

Declare Scope py_scope.
Delimit Scope py_scope with py.
Notation "x <- m ;; k" := (bind m (fun x => k))
  (at level 61, m at next level, right associativity) : py_scope.
Notation "m ;; k" := (bind m (fun _ => k))
  (at level 61, right associativity) : py_scope.
Open Scope py_scope.

Definition raise {A : Type} (description : string) : M A :=
  fun st => (Raised description, st).

Definition lift {A : Type} (o : Outcome A) : M A := fun st => (o, st).

(** [try: body  except Exception as e: handler e].  An exception outside
    [Exception] is not caught. *)
Definition try_except {A : Type} (body : M A) (handler : string -> M A) : M A :=
  fun st =>
    match body st with
    | (Returned a, st') => (Returned a, st')
    | (Raised e, st') => handler e st'
    | (Escaped s, st') => (Escaped s, st')
    end.

(** [try: body  finally: cleanup] *)
Definition try_finally {A : Type} (body : M A) (cleanup : M unit) : M A :=
  fun st =>
    match body st with
    | (r, st') =>
        match cleanup st' with
        | (Returned _, st'') => (r, st'')
        | (Raised e, st'') => (Raised e, st'')
        | (Escaped s, st'') => (Escaped s, st'')
        end
    end.

Definition emit (ev : Event) : M unit :=
  fun st => (Returned tt, {| agent := agent st; trace := (trace st ++ [ev])%list |}).

Definition read_agent : M (option IntelligentAgent) :=
  fun st => (Returned (agent st), st).

Definition write_agent (a : option IntelligentAgent) : M unit :=
  fun st => (Returned tt, {| agent := a; trace := trace st |}).

(** [agent.<attribute>...]: on [None] the attribute access raises
    AttributeError. *)
Definition agent_attr (attribute : string) : M IntelligentAgent :=
  a <- read_agent ;;
  match a with
  | Some ag => ret ag
  | None => raise ("'NoneType' object has no attribute '" ++ attribute ++ "'")
  end.

(** [d[key]] on a dict whose key may be missing. *)
Definition subscript {A : Type} (key : string) (field : option A) : M A :=
  match field with
  | Some v => ret v
  | None => raise ("'" ++ key ++ "'")
  end.

(** [for x in xs: acc = step acc x] *)
Fixpoint for_each {A B : Type} (step : B -> A -> M B) (xs : list A) (acc : B) : M B :=
  match xs with
  | [] => ret acc
  | x :: rest => acc' <- step acc x ;; for_each step rest acc'
  end.

(** A parameter with a default value: [None] when the caller leaves the
    argument out. *)
Definition default_arg (given : option string) (default : string) : string :=
  match given with
  | Some v => v
  | None => default
  end.

(** ** The handlers *)

(** [initialize_agent()] *)
Definition initialize_agent (env : Env) : M bool :=
  try_except
    (emit Construct ;;
     a <- lift (new_IntelligentAgent env) ;;
     write_agent (Some a) ;;
     emit (Stderr ("Intelligent agent initialized successfully with ID: "
                   ++ PyStr.of_Z (agent_id a))) ;;
     ret true)
    (fun e =>
       emit (Stderr ("Failed to initialize agent: " ++ e)) ;;
       write_agent None ;;
       ret false).

(** [process_message(message, user_id="web-user")] *)
Definition process_message (env : Env) (message : string) (user_id : option string)
  : M Result :=
  let user_id := default_arg user_id "web-user" in
  a <- read_agent ;;
  failed <- match a with
            | None => ok <- initialize_agent env ;; ret (negb ok)
            | Some _ => ret false
            end ;;
  if failed then
    ret [("error", JString "Failed to initialize intelligent agent");
         ("response", JString "I'm sorry, but I'm having trouble connecting to my AI brain right now. Please try again later.")]
  else
    try_except
      (emit LoopNew ;;
       try_finally
         (emit (Stderr ("Processing message: '" ++ message ++ "' for user " ++ user_id)) ;;
          ag <- agent_attr "process_message" ;;
          emit (Call "process_message" [message; user_id]) ;;
          response <- lift (agent_process_message ag message user_id) ;;
          shown <- lift (sliced_of response) ;;
          emit (Stderr ("Agent response: " ++ shown ++ "...")) ;;
          ret [("response", value_of response); ("success", JBool true)])
         (emit LoopClose))
      (fun e =>
         emit (Stderr ("Error processing message: " ++ e)) ;;
         ret [("error", JString e);
              ("response", JString ("I encountered an error while processing your message: " ++ e))]).

(** [clear_conversation(user_id="web-user")] *)
Definition clear_conversation (env : Env) (user_id : option string) : M Result :=
  let user_id := default_arg user_id "web-user" in
  a <- read_agent ;;
  failed <- match a with
            | None => ok <- initialize_agent env ;; ret (negb ok)
            | Some _ => ret false
            end ;;
  if failed then
    ret [("error", JString "Failed to initialize intelligent agent");
         ("success", JBool false)]
  else
    try_except
      (ag <- agent_attr "clear_conversation" ;;
       emit (Call "clear_conversation" [user_id]) ;;
       response <- lift (agent_clear_conversation ag user_id) ;;
       ret [("response", value_of response); ("success", JBool true)])
      (fun e =>
         emit (Stderr ("Error clearing conversation: " ++ e)) ;;
         ret [("error", JString e); ("success", JBool false)]).

(** [get_help()] *)
Definition get_help (env : Env) : M Result :=
  try_except
    (emit LoopNew ;;
     try_finally
       (ag <- agent_attr "get_help_message" ;;
        emit (Call "get_help_message" []) ;;
        response <- lift (agent_get_help_message ag) ;;
        ret [("response", value_of response); ("success", JBool true)])
       (emit LoopClose))
    (fun e =>
       emit (Stderr ("Error getting help: " ++ e)) ;;
       ret [("error", JString e);
            ("response", JString ("I encountered an error while getting help: " ++ e))]).

(** [analyze_conversation(user_id="web-user")] *)
Definition analyze_conversation (env : Env) (user_id : option string) : M Result :=
  let user_id := default_arg user_id "web-user" in
  a <- read_agent ;;
  failed <- match a with
            | None => ok <- initialize_agent env ;; ret (negb ok)
            | Some _ => ret false
            end ;;
  if failed then
    ret [("error", JString "Failed to initialize intelligent agent");
         ("response", JString "I'm sorry, but I'm having trouble connecting to my AI brain right now. Please try again later.")]
  else
    try_except
      (ag <- agent_attr "conversation_memory" ;;
       emit (Call "conversation_memory.analyze_conversation" [user_id]) ;;
       analysis <- lift (memory_analyze_conversation ag user_id) ;;
       has <- subscript "has_conversation" (has_conversation analysis) ;;
       if negb has then
         ret [("response", JString "We haven't had any previous conversations in this session. This is our first interaction! 😊");
              ("success", JBool true)]
       else
         summary <- subscript "summary" (summary analysis) ;;
         topics <- subscript "topics" (topics analysis) ;;
         sentiment <- subscript "sentiment" (sentiment analysis) ;;
         insights <- subscript "insights" (insights analysis) ;;
         recent_messages <- subscript "recent_messages" (recent_messages analysis) ;;
         let response_parts := [
           "🧠 **Conversation Analysis Report** 📊";
           "";
           "📈 **Conversation Statistics:**";
           "• **Total Messages:** " ++ format (total_messages summary);
           "• **Your Messages:** " ++ format (user_messages summary);
           "• **My Responses:** " ++ format (assistant_messages summary);
           "• **Duration:** " ++ format (conversation_duration_hours summary) ++ " hours";
           "• **Started:** " ++ format (conversation_start summary);
           "• **Last Activity:** " ++ format (last_activity summary);
           "";
           "🎯 **Topics Discussed:**";
           "• " ++ PyStr.join ", " topics;
           "";
           "😊 **Sentiment Analysis:**";
           "• **Overall Tone:** "
             ++ PyStr.title (unicode_title env) (overall_sentiment sentiment);
           "• **Engagement Level:** "
             ++ PyStr.title (unicode_title env) (engagement_level sentiment);
           "• **Questions Asked:** " ++ format (question_count sentiment);
           "";
           "💡 **Key Insights:**"
         ] in
         let response_parts :=
           fold_left (fun parts insight => app parts ["• " ++ insight])
                     insights response_parts in
         let response_parts :=
           app response_parts [""; "🔄 **Recent Messages:**"] in
         let response_parts :=
           fold_left
             (fun parts msg =>
                let role_emoji := if role msg =? "user" then "👤" else "🤖" in
                app parts [role_emoji ++ " **"
                           ++ PyStr.title (unicode_title env) (role msg) ++ "** ("
                           ++ format (timestamp msg) ++ "): " ++ format (content msg)])
             recent_messages response_parts in
         let response_parts :=
           app response_parts [
              "";
              "💭 **Analysis Summary:**";
              "This conversation shows " ++ engagement_level sentiment
                ++ " engagement with a " ++ overall_sentiment sentiment ++ " tone. ";
              "We've covered " ++ PyStr.of_nat (length topics) ++ " main topic"
                ++ (if negb (length topics =? 1)%nat then "s" else "")
                ++ " over " ++ format (conversation_duration_hours summary) ++ " hours. ";
              "I'm here to continue helping you with any questions or tasks! 🚀"
            ] in
         ret [("response", JString (PyStr.join PyStr.nl response_parts));
              ("success", JBool true)])
      (fun e =>
         emit (Stderr ("Error analyzing conversation: " ++ e)) ;;
         ret [("error", JString e);
              ("response", JString ("I encountered an error while analyzing our conversation: " ++ e))]).

(** [test_tools()] *)
Definition test_tools (env : Env) : M Result :=
  a <- read_agent ;;
  match a with
  | None => ret [("error", JString "Agent not initialized"); ("success", JBool false)]
  | Some _ =>
      try_except
        (let test_queries := [
           ("dictionary", "test");
           ("weather", "current weather");
           ("web_search", "latest news");
           ("gmail", "email functionality");
           ("sheets", "spreadsheet access")
         ] in
         results <-
           for_each
             (fun results item =>
                let '(tool_name, query) := item in
                try_except
                  (ret (Dict.set tool_name
                          (JObject [("status", JString "success");
                                    ("query", JString query);
                                    ("response",
                                     JString (PyStr.title (unicode_title env) tool_name
                                              ++ " tool is available and working"))])
                          results))
                  (fun e =>
                     ret (Dict.set tool_name
                            (JObject [("status", JString "error");
                                      ("query", JString query);
                                      ("error", JString e)])
                            results)))
             test_queries [] ;;
         ret [("test_results", JObject results); ("success", JBool true)])
        (fun e =>
           emit (Stdout ("Error testing tools: " ++ e)) ;;
           ret [("error", JString e); ("success", JBool false)])
  end.

(** ** The dispatcher *)

(** [main()], on [sys.argv = argv]; the value is the exit status of the
    process ([sys.exit(1)] is the last statement where it occurs). *)
Definition main (env : Env) (argv : list string) : M nat :=
  if (length argv <? 2)%nat then
    emit (StderrJson [("error", JString "No command provided")]) ;;
    ret 1%nat
  else
    let command := nth 1 argv "" in
    let args := if (2 <? length argv)%nat then skipn 2 argv else [] in
    try_except
      (result <-
         (if command =? "process_message" then
            if (length args <? 1)%nat then
              ret [("error", JString "Message required for process_message command")]
            else
              let message := nth 0 args "" in
              let user_id := if (1 <? length args)%nat then nth 1 args "" else "web-user" in
              process_message env message (Some user_id)
          else if command =? "clear_conversation" then
            let user_id := if (0 <? length args)%nat then nth 0 args "" else "web-user" in
            clear_conversation env (Some user_id)
          else if command =? "get_help" then
            get_help env
          else if command =? "test_tools" then
            test_tools env
          else if command =? "analyze_conversation" then
            let user_id := if (0 <? length args)%nat then nth 0 args "" else "web-user" in
            analyze_conversation env (Some user_id)
          else
            ret [("error", JString ("Unknown command: " ++ command))]) ;;
       document <- lift (json_dumps result) ;;
       emit (StdoutJson document) ;;
       ret 0%nat)
      (fun e =>
         emit (StderrJson [("error", JString e)]) ;;
         ret 1%nat).

(** The script from its first line: the imports, then [main()]. *)
Definition script (env : Env) (argv : list string) : M nat :=
  match import_modules env with
  | Returned _ =>
      emit (Stderr "Successfully imported intelligent agent modules") ;;
      main env argv
  | Raised e =>
      emit (Stderr ("Import error: " ++ e)) ;;
      ret 1%nat
  | Escaped s => lift (Escaped s)
  end.

(** One run of the bridge as a process. *)
Definition run (env : Env) (argv : list string) : Outcome nat * Proc :=
  script env argv initial.

(** The exit status: an [Exception] that reaches the top ends the process
    with status 1, an exception outside [Exception] with its own status.
    The traceback the interpreter then writes on standard error is not in
    the trace. *)
Definition exit_status (r : Outcome nat * Proc) : nat :=
  match fst r with
  | Returned code => code
  | Raised _ => 1
  | Escaped s => signal_status s
  end.

(** ** Observations on a run *)

(** The documents printed on standard output, in order. *)
Fixpoint stdout_of (t : list Event) : list Result :=
  match t with
  | [] => []
  | StdoutJson d :: rest => d :: stdout_of rest
  | _ :: rest => stdout_of rest
  end.

(** The lines of text printed on standard output that are no JSON document. *)
Fixpoint stdout_text_of (t : list Event) : list string :=
  match t with
  | [] => []
  | Stdout l :: rest => l :: stdout_text_of rest
  | _ :: rest => stdout_text_of rest
  end.

(** How many times [IntelligentAgent()] was called. *)
Fixpoint constructions (t : list Event) : nat :=
  match t with
  | [] => 0
  | Construct :: rest => S (constructions rest)
  | _ :: rest => constructions rest
  end.

(** ** Sample collaborators *)

Module Sample.

Definition history : Analysis := {|
  has_conversation := Some true;
  summary := Some {| total_messages := SInt 4; user_messages := SInt 2;
                     assistant_messages := SInt 2;
                     conversation_duration_hours := SOther "0.5";
                     conversation_start := SStr "2024-01-01 10:00:00";
                     last_activity := SStr "2024-01-01 10:30:00" |};
  topics := Some ["weather"];
  sentiment := Some {| overall_sentiment := "positive";
                       engagement_level := "high";
                       question_count := SInt 1 |};
  insights := Some ["User asks about the weather"; "Short session"];
  recent_messages := Some [
    {| role := "user"; timestamp := SStr "10:00"; content := SStr "hi" |};
    {| role := "assistant"; timestamp := SStr "10:01"; content := SStr "hello" |}]
|}.

Definition no_history : Analysis := {|
  has_conversation := Some false;
  summary := None; topics := None; sentiment := None;
  insights := None; recent_messages := None
|}.

(** An agent that answers; user ["web-user"] has a history, any other
    user has none. *)
Definition good_agent : IntelligentAgent := {|
  agent_id := 140234%Z;
  agent_process_message := fun message user_id => Returned (Str ("echo: " ++ message));
  agent_clear_conversation := fun user_id => Returned (Str "Conversation cleared");
  agent_get_help_message := Returned (Str "Here is what I can do");
  memory_analyze_conversation :=
    fun user_id => Returned (if user_id =? "web-user" then history else no_history)
|}.

(** An agent whose every operation raises. *)
Definition faulty_agent : IntelligentAgent := {|
  agent_id := 7%Z;
  agent_process_message := fun _ _ => Raised "connection reset";
  agent_clear_conversation := fun _ => Raised "store locked";
  agent_get_help_message := Raised "timeout";
  memory_analyze_conversation := fun _ => Raised "no memory"
|}.

(** A stand-in for the casing of text outside ASCII; the samples are
    ASCII and never reach it. *)
Definition no_casing (s : string) : string := s.

Definition good_env : Env :=
  {| import_modules := Returned tt; new_IntelligentAgent := Returned good_agent;
     unicode_title := no_casing |}.


(** An environment where [IntelligentAgent()] raises. *)
Definition broken_env : Env :=
  {| import_modules := Returned tt; new_IntelligentAgent := Raised "missing API key";
     unicode_title := no_casing |}.

Definition ready (a : IntelligentAgent) : Proc := {| agent := Some a; trace := [] |}.

End Sample.

(** ** Notions the properties are stated with *)

(** The handle a handler with the lazy initialisation works with: the one
    already there, or else the one the constructor gives. *)
Definition handle_for (env : Env) (st : Proc) : option IntelligentAgent :=
  match agent st with
  | Some a => Some a
  | None =>
      match new_IntelligentAgent env with
      | Returned a => Some a
      | Raised _ => None
      | Escaped _ => None
      end
  end.

(** The state such a handler continues in after the test of [agent]. *)
Definition after_guard (env : Env) (st : Proc) : Proc :=
  match agent st with
  | Some _ => st
  | None => snd (initialize_agent env st)
  end.


Definition supported_commands : list string :=
  ["process_message"; "clear_conversation"; "get_help"; "test_tools";
   "analyze_conversation"].

(** How many positional arguments a command reads. *)
Definition consumed (command : string) : nat :=
  if command =? "process_message" then 2
  else if command =? "clear_conversation" then 1
  else if command =? "analyze_conversation" then 1
  else 0.


(** A Result that reports success. *)
Definition reports_success (r : Result) : Prop :=
  Dict.get "success" r = Some (JBool true) /\ Dict.get "error" r = None.

(** A Result that reports a handled error, with [success: false] when
    [flag] is set and without a [success] field otherwise. *)
Definition reports_error (flag : bool) (r : Result) : Prop :=
  (exists e, Dict.get "error" r = Some (JString e)) /\
  Dict.get "success" r = if flag then Some (JBool false) else None.

(** What a handler leaves behind: nothing written on standard output,
    and a Result of one of the two kinds unless an exception outside
    [Exception] went through it. *)
Definition handled (flag : bool) (st : Proc) (out : Outcome Result * Proc) : Prop :=
  match out with
  | (Returned r, st') =>
      (stdout_of (trace st') = stdout_of (trace st) /\
       stdout_text_of (trace st') = stdout_text_of (trace st)) /\
      (reports_success r \/ reports_error flag r)
  | (Raised _, _) => False
  | (Escaped _, st') =>
      stdout_of (trace st') = stdout_of (trace st) /\
      stdout_text_of (trace st') = stdout_text_of (trace st)
  end.

(** The chain of tests in [main], as a function of the command and of the
    arguments after it. *)
Definition dispatch (env : Env) (command : string) (args : list string) : M Result :=
  if command =? "process_message" then
    if (length args <? 1)%nat then
      ret [("error", JString "Message required for process_message command")]
    else
      let message := nth 0 args "" in
      let user_id := if (1 <? length args)%nat then nth 1 args "" else "web-user" in
      process_message env message (Some user_id)
  else if command =? "clear_conversation" then
    let user_id := if (0 <? length args)%nat then nth 0 args "" else "web-user" in
    clear_conversation env (Some user_id)
  else if command =? "get_help" then
    get_help env
  else if command =? "test_tools" then
    test_tools env
  else if command =? "analyze_conversation" then
    let user_id := if (0 <? length args)%nat then nth 0 args "" else "web-user" in
    analyze_conversation env (Some user_id)
  else
    ret [("error", JString ("Unknown command: " ++ command))].

(** The state after [main] has printed [r]. *)
Definition printed (r : Result) (st : Proc) : Proc :=
  {| agent := agent st; trace := (trace st ++ [StdoutJson r])%list |}.

(** The report of [analyze_conversation], section by section; [casing] is
    the interpreter's [str.title()] outside ASCII. *)
Module Report.

Definition greeting : string :=
  "We haven't had any previous conversations in this session. This is our first interaction! 😊".

Definition heading : list string :=
  ["🧠 **Conversation Analysis Report** 📊"].

Definition statistics_heading : string := "📈 **Conversation Statistics:**".
Definition topics_heading : string := "🎯 **Topics Discussed:**".
Definition sentiment_heading : string := "😊 **Sentiment Analysis:**".
Definition insights_heading : string := "💡 **Key Insights:**".
Definition recent_heading : string := "🔄 **Recent Messages:**".
Definition closing_heading : string := "💭 **Analysis Summary:**".

Definition statistics (s : Summary) : list string :=
  [""; statistics_heading;
   "• **Total Messages:** " ++ format (total_messages s);
   "• **Your Messages:** " ++ format (user_messages s);
   "• **My Responses:** " ++ format (assistant_messages s);
   "• **Duration:** " ++ format (conversation_duration_hours s) ++ " hours";
   "• **Started:** " ++ format (conversation_start s);
   "• **Last Activity:** " ++ format (last_activity s)].

Definition topics_section (t : list string) : list string :=
  [""; topics_heading; "• " ++ PyStr.join ", " t].

Definition sentiment_section (casing : string -> string) (se : Sentiment)
  : list string :=
  [""; sentiment_heading;
   "• **Overall Tone:** " ++ PyStr.title casing (overall_sentiment se);
   "• **Engagement Level:** " ++ PyStr.title casing (engagement_level se);
   "• **Questions Asked:** " ++ format (question_count se)].

Definition bullet (insight : string) : string := "• " ++ insight.

Definition insights_section (ins : list string) : list string :=
  "" :: insights_heading :: map bullet ins.

Definition role_marker (r : string) : string :=
  if r =? "user" then "👤" else "🤖".

Definition message_line (casing : string -> string) (m : Message) : string :=
  role_marker (role m) ++ " **" ++ PyStr.title casing (role m) ++ "** ("
    ++ format (timestamp m) ++ "): " ++ format (content m).

Definition recent_section (casing : string -> string) (msgs : list Message)
  : list string :=
  "" :: recent_heading :: map (message_line casing) msgs.

Definition topic_word (n : nat) : string :=
  if (n =? 1)%nat then "topic" else "topics".

Definition closing (s : Summary) (t : list string) (se : Sentiment) : list string :=
  [""; closing_heading;
   "This conversation shows " ++ engagement_level se
     ++ " engagement with a " ++ overall_sentiment se ++ " tone. ";
   "We've covered " ++ PyStr.of_nat (length t) ++ " main " ++ topic_word (length t)
     ++ " over " ++ format (conversation_duration_hours s) ++ " hours. ";
   "I'm here to continue helping you with any questions or tasks! 🚀"].

Definition lines (casing : string -> string) (s : Summary) (t : list string)
           (se : Sentiment) (ins : list string) (msgs : list Message) : list string :=
  (heading ++ statistics s ++ topics_section t ++ sentiment_section casing se
     ++ insights_section ins ++ recent_section casing msgs ++ closing s t se)%list.

Definition text (casing : string -> string) (s : Summary) (t : list string)
           (se : Sentiment) (ins : list string) (msgs : list Message) : string :=
  PyStr.join PyStr.nl (lines casing s t se ins msgs).

End Report.

(** The [test_results] of [test_tools]. *)
Definition tool_names : list string :=
  ["dictionary"; "weather"; "web_search"; "gmail"; "sheets"].

(** ** Counting events, and several calls in one process *)

(** How many events of a trace satisfy [p]. *)
Definition occurrences (p : Event -> bool) (t : list Event) : nat :=
  length (filter p t).

Definition is_call (ev : Event) : bool :=
  match ev with Call _ _ => true | _ => false end.

Definition is_loop_new (ev : Event) : bool :=
  match ev with LoopNew => true | _ => false end.

Definition is_loop_close (ev : Event) : bool :=
  match ev with LoopClose => true | _ => false end.

(** One call of a handler, as a caller in the same process would make it. *)
Inductive Request : Type :=
| ProcessMessage (message : string) (user_id : option string)
| ClearConversation (user_id : option string)
| GetHelp
| TestTools
| AnalyzeConversation (user_id : option string).

Definition serve (env : Env) (rq : Request) : M Result :=
  match rq with
  | ProcessMessage message user_id => process_message env message user_id
  | ClearConversation user_id => clear_conversation env user_id
  | GetHelp => get_help env
  | TestTools => test_tools env
  | AnalyzeConversation user_id => analyze_conversation env user_id
  end.

(** The state after the calls [rqs], one after the other. *)
Fixpoint serve_all (env : Env) (rqs : list Request) (st : Proc) : Proc :=
  match rqs with
  | [] => st
  | rq :: rest => serve_all env rest (snd (serve env rq st))
  end.

(** The handlers that test [agent] and call [initialize_agent]. *)
Definition initialises (rq : Request) : bool :=
  match rq with
  | GetHelp | TestTools => false
  | _ => true
  end.

(** A run that gets as far as printing a Result: the imports succeed and
    a command is given. *)
Definition accepts (env : Env) (argv : list string) : bool :=
  match import_modules env with
  | Returned _ => (2 <=? length argv)%nat
  | Raised _ => false
  | Escaped _ => false
  end.

(** The key of the analysis whose absence stops [analyze_conversation]:
    the first one it reads and does not find. *)
Definition missing_key (an : Analysis) : option string :=
  match has_conversation an with
  | None => Some "has_conversation"
  | Some false => None
  | Some true =>
      match summary an, topics an, sentiment an, insights an, recent_messages an with
      | None, _, _, _, _ => Some "summary"
      | _, None, _, _, _ => Some "topics"
      | _, _, None, _, _ => Some "sentiment"
      | _, _, _, None, _ => Some "insights"
      | _, _, _, _, None => Some "recent_messages"
      | _, _, _, _, _ => None
      end
  end.

(** How [main] ends after the dispatch has ended in [out]: the status, or
    the exception that leaves it, and what it writes last. *)
Definition main_end (out : Outcome Result) : Outcome nat * list Event :=
  match out with
  | Returned r =>
      match json_dumps r with
      | Returned document => (Returned 0, [StdoutJson document])
      | Raised e => (Returned 1, [StderrJson [("error", JString e)]])
      | Escaped s => (Escaped s, [])
      end
  | Raised e => (Returned 1, [StderrJson [("error", JString e)]])
  | Escaped s => (Escaped s, [])
  end.

(** The budget of one handler call: at most one call of the constructor,
    at most one call of the agent, at most one event loop, and every loop
    opened is closed. *)
Definition within_budget (st st' : Proc) : Prop :=
  constructions (trace st') <= constructions (trace st) + 1 /\
  occurrences is_call (trace st') <= occurrences is_call (trace st) + 1 /\
  occurrences is_loop_new (trace st') <= occurrences is_loop_new (trace st) + 1 /\
  occurrences is_loop_new (trace st') + occurrences is_loop_close (trace st)
    = occurrences is_loop_close (trace st') + occurrences is_loop_new (trace st).

(** What [main] makes of a command and its arguments: a call of a
    handler, or a Result at once. *)
Definition parse (command : string) (args : list string) : Request + Result :=
  if command =? "process_message" then
    match args with
    | [] => inr [("error", JString "Message required for process_message command")]
    | [message] => inl (ProcessMessage message (Some "web-user"))
    | message :: user_id :: _ => inl (ProcessMessage message (Some user_id))
    end
  else if command =? "clear_conversation" then
    match args with
    | [] => inl (ClearConversation (Some "web-user"))
    | user_id :: _ => inl (ClearConversation (Some user_id))
    end
  else if command =? "get_help" then inl GetHelp
  else if command =? "test_tools" then inl TestTools
  else if command =? "analyze_conversation" then
    match args with
    | [] => inl (AnalyzeConversation (Some "web-user"))
    | user_id :: _ => inl (AnalyzeConversation (Some user_id))
    end
  else inr [("error", JString ("Unknown command: " ++ command))].

(** Further sample collaborators. *)
Module MoreSamples.

(** An analysis with a history that lacks three of its keys. *)
Definition partial_history : Analysis := {|
  has_conversation := Some true;
  summary := summary Sample.history;
  topics := None;
  sentiment := None;
  insights := insights Sample.history;
  recent_messages := None
|}.

Definition partial_agent : IntelligentAgent := {|
  agent_id := 1%Z;
  agent_process_message := fun _ _ => Returned (Str "");
  agent_clear_conversation := fun _ => Returned (Str "");
  agent_get_help_message := Returned (Str "");
  memory_analyze_conversation := fun _ => Returned partial_history
|}.

Definition partial_env : Env :=
  {| import_modules := Returned tt; new_IntelligentAgent := Returned partial_agent;
     unicode_title := Sample.no_casing |}.

(** An analysis with a history and nothing in its lists. *)
Definition empty_history : Analysis := {|
  has_conversation := Some true;
  summary := Some {| total_messages := SInt 0; user_messages := SInt 0;
                     assistant_messages := SInt 0;
                     conversation_duration_hours := SOther "0.0";
                     conversation_start := SStr "2024-01-01 10:00:00";
                     last_activity := SStr "2024-01-01 10:00:00" |};
  topics := Some [];
  sentiment := Some {| overall_sentiment := "neutral"; engagement_level := "low";
                       question_count := SInt 0 |};
  insights := Some [];
  recent_messages := Some []
|}.

Definition empty_agent : IntelligentAgent := {|
  agent_id := 2%Z;
  agent_process_message := fun _ _ => Returned (Str "");
  agent_clear_conversation := fun _ => Returned (Str "");
  agent_get_help_message := Returned (Str "");
  memory_analyze_conversation := fun _ => Returned empty_history
|}.

Definition empty_env : Env :=
  {| import_modules := Returned tt; new_IntelligentAgent := Returned empty_agent;
     unicode_title := Sample.no_casing |}.


End MoreSamples.


(** ** The paths of a handler *)







(** The state after [main] has caught [e] at the top and written it on
    standard error. *)
Definition reported (e : string) (st : Proc) : Proc :=
  {| agent := agent st;
     trace := (trace st ++ [StderrJson [("error", JString e)]])%list |}.

(** What [test_tools] puts under [test_results]. *)
Definition stub_results : list (string * Json) :=
  [("dictionary",
    JObject [("status", JString "success"); ("query", JString "test");
             ("response", JString "Dictionary tool is available and working")]);
   ("weather",
    JObject [("status", JString "success"); ("query", JString "current weather");
             ("response", JString "Weather tool is available and working")]);
   ("web_search",
    JObject [("status", JString "success"); ("query", JString "latest news");
             ("response", JString "Web_Search tool is available and working")]);
   ("gmail",
    JObject [("status", JString "success"); ("query", JString "email functionality");
             ("response", JString "Gmail tool is available and working")]);
   ("sheets",
    JObject [("status", JString "success"); ("query", JString "spreadsheet access");
             ("response", JString "Sheets tool is available and working")])].

(** Collaborators that leave their interface. *)
Module Unruly.




(** A [bytes] object [b'hi']: it can be sliced and shown, [json.dumps]
    refuses it. *)
Definition bytes_answer : Answer :=
  Obj (Returned "b'hi'") (JRefused "Object of type bytes is not JSON serializable").

(** An agent that answers with [bytes]. *)
Definition bytes_agent : IntelligentAgent := {|
  agent_id := 4%Z;
  agent_process_message := fun _ _ => Returned bytes_answer;
  agent_clear_conversation := fun _ => Returned bytes_answer;
  agent_get_help_message := Returned bytes_answer;
  memory_analyze_conversation := fun _ => Returned Sample.no_history
|}.

Definition bytes_env : Env :=
  {| import_modules := Returned tt; new_IntelligentAgent := Returned bytes_agent;
     unicode_title := Sample.no_casing |}.




End Unruly.

(** ** Handlers and [main] against the paths *)

(** Nothing was written on standard output between [st] and [st']. *)
Definition quiet (st st' : Proc) : Prop :=
  stdout_of (trace st') = stdout_of (trace st) /\
  stdout_text_of (trace st') = stdout_text_of (trace st).


(** * Properties *)

(** ** Traces *)

Lemma stdout_of_app (t u : list Event) :
  stdout_of (t ++ u) = (stdout_of t ++ stdout_of u)%list.
Proof.
  induction t as [|ev t IH]; simpl; [reflexivity|].
  destruct ev; simpl; rewrite IH; reflexivity.
Qed.

Lemma stdout_text_of_app (t u : list Event) :
  stdout_text_of (t ++ u) = (stdout_text_of t ++ stdout_text_of u)%list.
Proof.
  induction t as [|ev t IH]; simpl; [reflexivity|].
  destruct ev; simpl; rewrite IH; reflexivity.
Qed.

Lemma constructions_app (t u : list Event) :
  constructions (t ++ u) = constructions t + constructions u.
Proof.
  induction t as [|ev t IH]; simpl; [reflexivity|].
  destruct ev; simpl; rewrite IH; reflexivity.
Qed.

(** Unfolds the statements of the monad down to functions on the state. *)
Ltac unfold_py :=
  unfold agent_attr, subscript in *;
  unfold bind, ret, raise, lift, try_except, try_finally, emit,
    read_agent, write_agent in *.

(** [initialize_agent] calls the constructor once, whatever it gives. *)
Lemma initialize_agent_run (env : Env) (st : Proc) :
  initialize_agent env st =
  match new_IntelligentAgent env with
  | Returned a =>
      (Returned true,
       {| agent := Some a;
          trace := (trace st ++
                    [Construct;
                     Stderr ("Intelligent agent initialized successfully with ID: "
                             ++ PyStr.of_Z (agent_id a))])%list |})
  | Raised e =>
      (Returned false,
       {| agent := None;
          trace := (trace st ++
                    [Construct; Stderr ("Failed to initialize agent: " ++ e)])%list |})
  | Escaped s =>
      (Escaped s, {| agent := agent st; trace := (trace st ++ [Construct])%list |})
  end.
Proof.
  unfold initialize_agent. unfold_py.
  destruct (new_IntelligentAgent env); simpl; rewrite <- ?app_assoc; reflexivity.
Qed.

(** Runs a handler on a state whose [agent] is known. *)
Ltac run_handler :=
  unfold_py; simpl; rewrite ?initialize_agent_run; simpl;
  rewrite <- ?app_assoc; simpl.

(** ** Lazy initialisation *)

Lemma handle_for_cases env st a :
  handle_for env st = Some a ->
  agent st = Some a \/ (agent st = None /\ new_IntelligentAgent env = Returned a).
Proof.
  unfold handle_for. destruct (agent st).
  - intros [= ->]. left; reflexivity.
  - destruct (new_IntelligentAgent env);
      [intros [= ->]; right; split; reflexivity | discriminate | discriminate].
Qed.

(** Destructs whatever the handler branches on. *)
Ltac branch :=
  repeat match goal with
         | |- context [match ?x with _ => _ end] =>
             lazymatch x with
             | context [match _ with _ => _ end] => fail
             | _ => (is_var x; destruct x) || destruct x eqn:?
             end; simpl
         end.

(** With a handle in place no handler calls the constructor. *)
Lemma ready_no_construction env st a message user_id :
  agent st = Some a ->
  constructions (trace (snd (process_message env message user_id st)))
    = constructions (trace st) /\
  constructions (trace (snd (clear_conversation env user_id st)))
    = constructions (trace st) /\
  constructions (trace (snd (analyze_conversation env user_id st)))
    = constructions (trace st) /\
  constructions (trace (snd (get_help env st))) = constructions (trace st) /\
  constructions (trace (snd (test_tools env st))) = constructions (trace st).
Proof.
  intros Hag. destruct st as [ag tr]. simpl in Hag. subst ag.
  repeat split.
  - unfold process_message. run_handler. branch; simpl;
      rewrite ?constructions_app; simpl; lia.
  - unfold clear_conversation. run_handler. branch; simpl;
      rewrite ?constructions_app; simpl; lia.
  - unfold analyze_conversation. run_handler. branch; simpl;
      rewrite ?constructions_app; simpl; lia.
  - unfold get_help. run_handler. branch; simpl;
      rewrite ?constructions_app; simpl; lia.
Qed.

(** ** The agent that cannot be built *)







(** [get_help] does not call the constructor either: in a fresh process it
    runs into [None]. *)
Example get_help_on_fresh_process :
  get_help Sample.good_env initial =
    (Returned [("error", JString "'NoneType' object has no attribute 'get_help_message'");
               ("response", JString "I encountered an error while getting help: 'NoneType' object has no attribute 'get_help_message'")],
     {| agent := None;
        trace := [LoopNew; LoopClose;
                  Stderr "Error getting help: 'NoneType' object has no attribute 'get_help_message'"] |}).
Proof. reflexivity. Qed.

(** ** Faults of the agent *)




(** ** The dispatcher *)

Lemma args_after_command (prog command : string) (args : list string) :
  (if (2 <? length (prog :: command :: args))%nat
   then skipn 2 (prog :: command :: args) else []) = args.
Proof. destruct args; reflexivity. Qed.

(** [main] with a command: dispatch, then print the Result. *)
Lemma main_dispatch env prog command args :
  main env (prog :: command :: args) =
  try_except
    (result <- dispatch env command args ;;
     document <- lift (json_dumps result) ;;
     emit (StdoutJson document) ;;
     ret 0%nat)
    (fun e => emit (StderrJson [("error", JString e)]) ;; ret 1%nat).
Proof.
  unfold main.
  change (length (prog :: command :: args) <? 2)%nat with false.
  cbv iota. rewrite args_after_command. reflexivity.
Qed.

(** A handler that returns a Result [json.dumps] can write makes [main]
    print it and end with status 0. *)
Lemma main_prints env prog command args st r st' :
  dispatch env command args st = (Returned r, st') ->
  json_dumps r = Returned r ->
  main env (prog :: command :: args) st = (Returned 0%nat, printed r st').
Proof.
  intros H Hj. rewrite main_dispatch. unfold try_except, bind at 1. rewrite H.
  unfold bind at 1, lift at 1. rewrite Hj. reflexivity.
Qed.

Lemma dispatch_parse env command args :
  dispatch env command args =
  match parse command args with
  | inl rq => serve env rq
  | inr r => ret r
  end.
Proof.
  unfold dispatch, parse.
  destruct (command =? "process_message").
  { destruct args as [|message [|user_id rest]]; reflexivity. }
  destruct (command =? "clear_conversation").
  { destruct args as [|user_id rest]; reflexivity. }
  destruct (command =? "get_help"); [reflexivity|].
  destruct (command =? "test_tools"); [reflexivity|].
  destruct (command =? "analyze_conversation"); [|reflexivity].
  destruct args as [|user_id rest]; reflexivity.
Qed.

(** [main] with a command: the dispatch, then the end of [main]. *)
Lemma main_after_dispatch env prog command args st :
  main env (prog :: command :: args) st =
  (fst (main_end (fst (dispatch env command args st))),
   {| agent := agent (snd (dispatch env command args st));
      trace := (trace (snd (dispatch env command args st))
                ++ snd (main_end (fst (dispatch env command args st))))%list |}).
Proof.
  rewrite main_dispatch. unfold try_except, bind at 1.
  destruct (dispatch env command args st) as [[r|e|s] [ag tr]]; simpl.
  - unfold main_end, bind, lift, emit, ret.
    destruct (json_dumps r); simpl; rewrite ?app_nil_r; reflexivity.
  - reflexivity.
  - rewrite app_nil_r. reflexivity.
Qed.

Lemma unsupported_eqb (command : string) :
  ~ In command supported_commands ->
  (command =? "process_message") = false /\
  (command =? "clear_conversation") = false /\
  (command =? "get_help") = false /\
  (command =? "test_tools") = false /\
  (command =? "analyze_conversation") = false.
Proof.
  intros Hnot. repeat split; apply String.eqb_neq; intros ->;
    apply Hnot; simpl; tauto.
Qed.

(** C8: a command outside the supported set makes [main] print
    [{error: "Unknown command: <name>"}] on standard output and end with
    status 0; so does the whole script once its imports have succeeded. *)
Theorem C8_unknown_command env prog command args st :
  ~ In command supported_commands ->
  import_modules env = Returned tt ->
  main env (prog :: command :: args) st =
    (Returned 0%nat,
     printed [("error", JString ("Unknown command: " ++ command))] st) /\
  run env (prog :: command :: args) =
    (Returned 0%nat,
     {| agent := None;
        trace := [Stderr "Successfully imported intelligent agent modules";
                  StdoutJson [("error", JString ("Unknown command: " ++ command))]] |}) /\
  exit_status (run env (prog :: command :: args)) = 0.
Proof.
  intros Hnot Himp.
  destruct (unsupported_eqb command Hnot) as (H1 & H2 & H3 & H4 & H5).
  assert (Hmain : forall st0,
             main env (prog :: command :: args) st0 =
             (Returned 0%nat,
              printed [("error", JString ("Unknown command: " ++ command))] st0)).
  { intros st0. apply main_prints; [|reflexivity]. unfold dispatch.
    rewrite H1, H2, H3, H4, H5. reflexivity. }
  split; [apply Hmain|].
  assert (Hrun : run env (prog :: command :: args) =
                 (Returned 0%nat,
                  {| agent := None;
                     trace := [Stderr "Successfully imported intelligent agent modules";
                               StdoutJson [("error", JString ("Unknown command: " ++ command))]] |})).
  { unfold run, script. rewrite Himp. unfold bind at 1, emit at 1.
    rewrite Hmain. reflexivity. }
  split; [exact Hrun|]. unfold exit_status. rewrite Hrun. reflexivity.
Qed.

Lemma C8_unknown_command_witness :
  ~ In "foo_bar" supported_commands /\
  stdout_of (trace (snd (run Sample.good_env ["python_bridge.py"; "foo_bar"; "x"])))
    = [[("error", JString "Unknown command: foo_bar")]] /\
  exit_status (run Sample.good_env ["python_bridge.py"; "foo_bar"; "x"]) = 0.
Proof.
  assert (Hnot : ~ In "foo_bar" supported_commands).
  { simpl. intros [H|[H|[H|[H|[H|[]]]]]]; discriminate H. }
  split; [exact Hnot|].
  destruct (C8_unknown_command Sample.good_env "python_bridge.py" "foo_bar" ["x"]
              initial Hnot eq_refl) as (_ & Hrun & Hexit).
  split; [rewrite Hrun; reflexivity | exact Hexit].
Defined.

(** C5: leaving the user identifier out is the same as giving
    ["web-user"], in the handlers' own default and in the default [main]
    fills in, for the three commands that take a user identifier; [main]
    then does with the Result of [process_message] what it does with any
    Result. *)
Theorem C5_default_user env prog message st :
  (process_message env message None st
     = process_message env message (Some "web-user") st /\
   clear_conversation env None st = clear_conversation env (Some "web-user") st /\
   analyze_conversation env None st = analyze_conversation env (Some "web-user") st) /\
  main env [prog; "process_message"; message] st
    = main env [prog; "process_message"; message; "web-user"] st /\
  main env [prog; "clear_conversation"] st
    = main env [prog; "clear_conversation"; "web-user"] st /\
  main env [prog; "analyze_conversation"] st
    = main env [prog; "analyze_conversation"; "web-user"] st /\
  main env [prog; "process_message"; message] st
    = (let (r, st') := process_message env message None st in
       match r with
       | Returned result =>
           match json_dumps result with
           | Returned document => (Returned 0%nat, printed document st')
           | Raised e => (Returned 1%nat, reported e st')
           | Escaped s => (Escaped s, st')
           end
       | Raised e =>
           (Returned 1%nat,
            {| agent := agent st';
               trace := (trace st' ++ [StderrJson [("error", JString e)]])%list |})
       | Escaped s => (Escaped s, st')
       end).
Proof.
  repeat split.
  rewrite main_dispatch. unfold dispatch. simpl.
  unfold try_except, bind, emit, ret, lift.
  change (process_message env message (Some "web-user") st)
    with (process_message env message None st).
  destruct (process_message env message None st) as [[r|e|s] st']; try reflexivity.
  destruct (json_dumps r); reflexivity.
Qed.

(** C10: arguments after those a command reads change nothing: [main]
    does the same on the full list as on its first [consumed command]
    arguments. *)
Theorem C10_extra_arguments_ignored env prog command args st :
  main env (prog :: command :: args) st
    = main env (prog :: command :: firstn (consumed command) args) st.
Proof.
  rewrite !main_dispatch.
  assert (Hd : dispatch env command args
               = dispatch env command (firstn (consumed command) args)).
  { unfold dispatch, consumed.
    destruct (command =? "process_message").
    - destruct args as [|a0 [|a1 rest]]; reflexivity.
    - destruct (command =? "clear_conversation").
      + destruct args as [|a0 rest]; reflexivity.
      + destruct (command =? "get_help"); [reflexivity|].
        destruct (command =? "test_tools"); [reflexivity|].
        destruct (command =? "analyze_conversation"); [|reflexivity].
        destruct args as [|a0 rest]; reflexivity. }
  rewrite Hd. reflexivity.
Qed.

Example extra_arguments_sample :
  run Sample.good_env ["python_bridge.py"; "analyze_conversation"; "bob"; "x"; "y"]
    = run Sample.good_env ["python_bridge.py"; "analyze_conversation"; "bob"].
Proof. reflexivity. Qed.

(** ** The fields of a Result *)

(** Closes a goal [handled flag st out] once [out] is known. *)
Ltac close_handled :=
  repeat split; simpl; rewrite ?stdout_of_app, ?stdout_text_of_app; simpl;
  rewrite ?app_nil_r;
  first [ reflexivity
        | left; split; reflexivity
        | right; split; [eexists; reflexivity | reflexivity] ].

Lemma process_message_handled env message user_id st :
  handled false st (process_message env message user_id st).
Proof.
  destruct st as [[a|] tr]; unfold handled, process_message;
    run_handler; branch; close_handled.
Qed.

Lemma clear_conversation_handled env user_id st :
  handled true st (clear_conversation env user_id st).
Proof.
  destruct st as [[a|] tr]; unfold handled, clear_conversation;
    run_handler; branch; close_handled.
Qed.

Lemma get_help_handled env st :
  handled false st (get_help env st).
Proof.
  destruct st as [[a|] tr]; unfold handled, get_help;
    run_handler; branch; close_handled.
Qed.

Lemma analyze_conversation_handled env user_id st :
  handled false st (analyze_conversation env user_id st).
Proof.
  destruct st as [[a|] tr]; unfold handled, analyze_conversation;
    run_handler; branch; close_handled.
Qed.

Lemma test_tools_handled env st :
  handled true st (test_tools env st).
Proof.
  destruct st as [[a|] tr]; unfold handled, test_tools;
    run_handler; close_handled.
Qed.







(** A [bytes] answer is on the success path of [process_message], and
    [json.dumps] refuses it: [main] writes the error on standard error and
    ends with status 1, nothing is printed. *)
Example bytes_answer_is_not_printed :
  run Unruly.bytes_env ["python_bridge.py"; "process_message"; "hello"] =
    (Returned 1,
     {| agent := Some Unruly.bytes_agent;
        trace := [Stderr "Successfully imported intelligent agent modules";
                  Construct;
                  Stderr "Intelligent agent initialized successfully with ID: 4";
                  LoopNew;
                  Stderr "Processing message: 'hello' for user web-user";
                  Call "process_message" ["hello"; "web-user"];
                  Stderr "Agent response: b'hi'...";
                  LoopClose;
                  StderrJson
                    [("error",
                      JString "Object of type bytes is not JSON serializable")]] |}).
Proof. reflexivity. Qed.

(** ** The conversation report *)

(** The two loops of the report append one line for each element. *)
Lemma fold_left_append {A : Type} (line : A -> string) (xs : list A) (parts : list string) :
  fold_left (fun parts x => app parts [line x]) xs parts = (parts ++ map line xs)%list.
Proof.
  revert parts. induction xs as [|x xs IH]; intros parts; simpl.
  - rewrite app_nil_r. reflexivity.
  - rewrite IH, <- app_assoc. reflexivity.
Qed.

(** Runs the statements of the monad and leaves strings as they are. *)
Ltac step_py :=
  cbv beta iota zeta
      delta [bind read_agent write_agent ret try_except try_finally agent_attr
             emit lift subscript raise agent trace negb fst snd].

(** [analyze_conversation] once the handle is there and the memory has
    answered. *)
Lemma analyze_conversation_answer env st a user_id an :
  handle_for env st = Some a ->
  memory_analyze_conversation a (default_arg user_id "web-user") = Returned an ->
  fst (analyze_conversation env user_id st) =
  fst (try_except
         (has <- subscript "has_conversation" (has_conversation an) ;;
          if negb has then
            ret [("response", JString Report.greeting); ("success", JBool true)]
          else
            s <- subscript "summary" (summary an) ;;
            t <- subscript "topics" (topics an) ;;
            se <- subscript "sentiment" (sentiment an) ;;
            ins <- subscript "insights" (insights an) ;;
            msgs <- subscript "recent_messages" (recent_messages an) ;;
            ret [("response",
                  JString (Report.text (unicode_title env) s t se ins msgs));
                 ("success", JBool true)])
         (fun e =>
            ret [("error", JString e);
                 ("response",
                  JString ("I encountered an error while analyzing our conversation: " ++ e))])
         st).
Proof.
  intros Hh Hmem. destruct st as [ag tr].
  assert (Hreport : forall s t se ins msgs,
    PyStr.join PyStr.nl
      (app
         (fold_left
            (fun parts msg =>
               app parts
                 [(if role msg =? "user" then "👤" else "🤖") ++ " **"
                    ++ PyStr.title (unicode_title env) (role msg) ++ "** ("
                    ++ format (timestamp msg) ++ "): " ++ format (content msg)])
            msgs
            (app
               (fold_left (fun parts insight => app parts ["• " ++ insight]) ins
                  ["🧠 **Conversation Analysis Report** 📊";
                   "";
                   "📈 **Conversation Statistics:**";
                   "• **Total Messages:** " ++ format (total_messages s);
                   "• **Your Messages:** " ++ format (user_messages s);
                   "• **My Responses:** " ++ format (assistant_messages s);
                   "• **Duration:** " ++ format (conversation_duration_hours s) ++ " hours";
                   "• **Started:** " ++ format (conversation_start s);
                   "• **Last Activity:** " ++ format (last_activity s);
                   "";
                   "🎯 **Topics Discussed:**";
                   "• " ++ PyStr.join ", " t;
                   "";
                   "😊 **Sentiment Analysis:**";
                   "• **Overall Tone:** "
                     ++ PyStr.title (unicode_title env) (overall_sentiment se);
                   "• **Engagement Level:** "
                     ++ PyStr.title (unicode_title env) (engagement_level se);
                   "• **Questions Asked:** " ++ format (question_count se);
                   "";
                   "💡 **Key Insights:**"])
               [""; "🔄 **Recent Messages:**"]))
         ["";
          "💭 **Analysis Summary:**";
          "This conversation shows " ++ engagement_level se
            ++ " engagement with a " ++ overall_sentiment se ++ " tone. ";
          "We've covered " ++ PyStr.of_nat (length t) ++ " main topic"
            ++ (if negb (length t =? 1)%nat then "s" else "")
            ++ " over " ++ format (conversation_duration_hours s) ++ " hours. ";
          "I'm here to continue helping you with any questions or tasks! 🚀"])
    = Report.text (unicode_title env) s t se ins msgs).
  { intros s t se ins msgs.
    rewrite (fold_left_append (fun insight => "• " ++ insight)).
    rewrite (fold_left_append
               (fun msg =>
                  (if role msg =? "user" then "👤" else "🤖") ++ " **"
                    ++ PyStr.title (unicode_title env) (role msg) ++ "** ("
                    ++ format (timestamp msg) ++ "): " ++ format (content msg))).
    unfold Report.text, Report.lines. f_equal.
    rewrite <- !app_assoc.
    unfold Report.closing, Report.topic_word.
    destruct (length t =? 1)%nat; reflexivity. }
  destruct (handle_for_cases _ _ _ Hh) as [Hag | [Hag Hnew]]; simpl in Hag; subst ag.
  - unfold analyze_conversation. step_py. rewrite Hmem. step_py.
    destruct (has_conversation an) as [[|]|]; step_py; [|reflexivity|reflexivity].
    destruct (summary an) as [s|]; step_py; [|reflexivity].
    destruct (topics an) as [t|]; step_py; [|reflexivity].
    destruct (sentiment an) as [se|]; step_py; [|reflexivity].
    destruct (insights an) as [ins|]; step_py; [|reflexivity].
    destruct (recent_messages an) as [msgs|]; step_py; [|reflexivity].
    rewrite Hreport. reflexivity.
  - unfold analyze_conversation. step_py. rewrite initialize_agent_run, Hnew.
    step_py. rewrite Hmem. step_py.
    destruct (has_conversation an) as [[|]|]; step_py; [|reflexivity|reflexivity].
    destruct (summary an) as [s|]; step_py; [|reflexivity].
    destruct (topics an) as [t|]; step_py; [|reflexivity].
    destruct (sentiment an) as [se|]; step_py; [|reflexivity].
    destruct (insights an) as [ins|]; step_py; [|reflexivity].
    destruct (recent_messages an) as [msgs|]; step_py; [|reflexivity].
    rewrite Hreport. reflexivity.
Qed.

(** C6: when [has_conversation] is false the Result is [success: true]
    with the first-contact greeting as [response], whatever the other keys
    of the analysis hold and whether they are there at all; the greeting
    contains none of the headings of the statistics, topics and sentiment
    sections. *)
Theorem C6_first_contact env st a user_id an :
  handle_for env st = Some a ->
  memory_analyze_conversation a (default_arg user_id "web-user") = Returned an ->
  has_conversation an = Some false ->
  fst (analyze_conversation env user_id st) =
    Returned [("response", JString "We haven't had any previous conversations in this session. This is our first interaction! 😊");
              ("success", JBool true)] /\
  Forall (fun heading => PyStr.contains heading Report.greeting = false)
         [Report.statistics_heading; Report.topics_heading; Report.sentiment_heading].
Proof.
  intros Hh Hmem Hhas. split.
  - rewrite (analyze_conversation_answer env st a user_id an Hh Hmem), Hhas.
    reflexivity.
  - repeat constructor.
Qed.

Lemma C6_first_contact_witness :
  handle_for Sample.good_env initial = Some Sample.good_agent /\
  has_conversation Sample.no_history = Some false /\
  fst (analyze_conversation Sample.good_env (Some "bob") initial) =
    Returned [("response", JString Report.greeting); ("success", JBool true)].
Proof.
  split; [reflexivity | split; [reflexivity|]].
  apply (C6_first_contact Sample.good_env initial Sample.good_agent (Some "bob")
           Sample.no_history); reflexivity.
Defined.

(** C7: when [has_conversation] is true and the analysis has its keys, the
    [response] is the lines of the heading, the statistics section, the
    topics section, the sentiment section, the insights section (a bullet
    for each insight, in order), the recent-messages section (a line for
    each message, in order) and the closing summary, in this order, joined
    by newlines; the closing summary writes "topic" exactly when there is
    one topic and "topics" otherwise.  Tone, engagement level and roles
    are put in title case by [str.title()], the interpreter's own casing
    where they have characters outside ASCII. *)
Theorem C7_report_sections env st a user_id an s t se ins msgs :
  handle_for env st = Some a ->
  memory_analyze_conversation a (default_arg user_id "web-user") = Returned an ->
  an = {| has_conversation := Some true; summary := Some s; topics := Some t;
          sentiment := Some se; insights := Some ins;
          recent_messages := Some msgs |} ->
  fst (analyze_conversation env user_id st) =
    Returned [("response",
               JString (PyStr.join PyStr.nl
                          (Report.heading ++ Report.statistics s
                             ++ Report.topics_section t
                             ++ Report.sentiment_section (unicode_title env) se
                             ++ Report.insights_section ins
                             ++ Report.recent_section (unicode_title env) msgs
                             ++ Report.closing s t se)%list));
              ("success", JBool true)] /\
  Report.insights_section ins
    = "" :: "💡 **Key Insights:**" :: map (fun insight => "• " ++ insight) ins /\
  Report.recent_section (unicode_title env) msgs
    = "" :: "🔄 **Recent Messages:**"
         :: map (Report.message_line (unicode_title env)) msgs /\
  (Report.topic_word (length t) = "topic" <-> length t = 1) /\
  (Report.topic_word (length t) = "topics" <-> length t <> 1).
Proof.
  intros Hh Hmem Han. split; [|split; [|split; [|split]]].
  - rewrite (analyze_conversation_answer env st a user_id an Hh Hmem), Han.
    reflexivity.
  - reflexivity.
  - reflexivity.
  - unfold Report.topic_word. destruct (Nat.eqb_spec (length t) 1) as [H|H].
    + split; intros _; [exact H | reflexivity].
    + split; [discriminate | intros H'; contradiction].
  - unfold Report.topic_word. destruct (Nat.eqb_spec (length t) 1) as [H|H].
    + split; [discriminate | intros H'; contradiction].
    + split; intros _; [exact H | reflexivity].
Qed.

Lemma C7_report_sections_witness :
  handle_for Sample.good_env initial = Some Sample.good_agent /\
  memory_analyze_conversation Sample.good_agent "web-user" = Returned Sample.history /\
  exists text,
    fst (analyze_conversation Sample.good_env None initial) =
      Returned [("response", JString text); ("success", JBool true)] /\
    PyStr.contains "We've covered 1 main topic over 0.5 hours. " text = true.
Proof.
  split; [reflexivity | split; [reflexivity|]].
  destruct (C7_report_sections Sample.good_env initial Sample.good_agent None
              Sample.history _ _ _ _ _ eq_refl eq_refl eq_refl) as [Hreport _].
  eexists. split; [exact Hreport | reflexivity].
Defined.

(** ** The tool probe *)

(** C9: with an agent in place [test_tools] returns [success: true] and
    [test_results] with the keys dictionary, weather, web_search, gmail
    and sheets, in this order; every entry has status "success", the
    query of its tool and the [response] "<Tool> tool is available and
    working"; neither the agent nor the environment is consulted, the
    state is left as it was and nothing is printed. *)
Theorem C9_test_tools_stub env st a :
  agent st = Some a ->
  test_tools env st =
    (Returned
       [("test_results",
         JObject
           [("dictionary",
             JObject [("status", JString "success"); ("query", JString "test");
                      ("response", JString "Dictionary tool is available and working")]);
            ("weather",
             JObject [("status", JString "success");
                      ("query", JString "current weather");
                      ("response", JString "Weather tool is available and working")]);
            ("web_search",
             JObject [("status", JString "success"); ("query", JString "latest news");
                      ("response", JString "Web_Search tool is available and working")]);
            ("gmail",
             JObject [("status", JString "success");
                      ("query", JString "email functionality");
                      ("response", JString "Gmail tool is available and working")]);
            ("sheets",
             JObject [("status", JString "success");
                      ("query", JString "spreadsheet access");
                      ("response", JString "Sheets tool is available and working")])]);
        ("success", JBool true)],
     st) /\
  Dict.keys stub_results = tool_names /\
  Forall (fun entry =>
            exists query,
              snd entry = JObject [("status", JString "success");
                                   ("query", JString query);
                                   ("response",
                                    JString (PyStr.title_ascii (fst entry)
                                             ++ " tool is available and working"))])
         stub_results /\
  fst (test_tools env st)
    = Returned [("test_results", JObject stub_results); ("success", JBool true)].
Proof.
  intros Hag. destruct st as [ag tr]. simpl in Hag. subst ag.
  split; [reflexivity | split; [reflexivity | split; [|reflexivity]]].
  repeat constructor; simpl; eexists; reflexivity.
Qed.

Lemma C9_test_tools_stub_witness :
  agent (Sample.ready Sample.faulty_agent) = Some Sample.faulty_agent /\
  exists results,
    fst (test_tools Sample.broken_env (Sample.ready Sample.faulty_agent)) =
      Returned [("test_results", JObject results); ("success", JBool true)] /\
    Dict.keys results = tool_names.
Proof.
  split; [reflexivity|].
  destruct (C9_test_tools_stub Sample.broken_env (Sample.ready Sample.faulty_agent)
              Sample.faulty_agent eq_refl) as (Hrun & Hkeys & _).
  exists stub_results. rewrite Hrun. split; [reflexivity | exact Hkeys].
Defined.

(** * Further properties of the bridge *)

(** ** What one call of a handler may do *)

Lemma occurrences_app (p : Event -> bool) (t u : list Event) :
  occurrences p (t ++ u) = occurrences p t + occurrences p u.
Proof. unfold occurrences. rewrite filter_app, length_app. reflexivity. Qed.

Ltac close_budget :=
  unfold within_budget; simpl;
  rewrite ?constructions_app, ?occurrences_app; unfold occurrences; simpl;
  repeat split; lia.

Lemma serve_within_budget env rq st :
  within_budget st (snd (serve env rq st)).
Proof.
  destruct rq as [message user_id|user_id| | |user_id]; destruct st as [[a|] tr];
    simpl serve.
  - unfold process_message. run_handler. branch; close_budget.
  - unfold process_message. run_handler. branch; close_budget.
  - unfold clear_conversation. run_handler. branch; close_budget.
  - unfold clear_conversation. run_handler. branch; close_budget.
  - unfold get_help. run_handler. branch; close_budget.
  - unfold get_help. run_handler. branch; close_budget.
  - unfold test_tools. run_handler. close_budget.
  - unfold test_tools. run_handler. close_budget.
  - unfold analyze_conversation. run_handler. branch; close_budget.
  - unfold analyze_conversation. run_handler. branch; close_budget.
Qed.

(** ** One handler call inside [main] *)

(** A handler call writes nothing on standard output, and no [Exception]
    comes out of it. *)
Lemma serve_handled env rq st :
  exists flag, handled flag st (serve env rq st).
Proof.
  destruct rq as [message user_id|user_id| | |user_id]; simpl.
  - exists false. apply process_message_handled.
  - exists true. apply clear_conversation_handled.
  - exists false. apply get_help_handled.
  - exists true. apply test_tools_handled.
  - exists false. apply analyze_conversation_handled.
Qed.

Lemma dispatch_quiet env command args st :
  quiet st (snd (dispatch env command args st)) /\
  within_budget st (snd (dispatch env command args st)) /\
  (forall e, fst (dispatch env command args st) <> Raised e).
Proof.
  rewrite dispatch_parse. destruct (parse command args) as [rq|r].
  - destruct (serve_handled env rq st) as [flag Hh].
    pose proof (serve_within_budget env rq st) as Hb.
    destruct (serve env rq st) as [[r|e|s] st']; simpl in Hh; [|contradiction|].
    + destruct Hh as [Hq _]. repeat split; try apply Hq; try apply Hb. discriminate.
    + repeat split; try apply Hh; try apply Hb. discriminate.
  - unfold ret, quiet, within_budget. simpl. repeat split; try lia. discriminate.
Qed.

(** ** The whole run *)

(** X1: without a command ([sys.argv] has the script name at most) [main]
    writes [{error: "No command provided"}] on standard error, nothing on
    standard output, leaves the agent alone and ends with status 1. *)
Theorem main_without_command env argv st :
  length argv < 2 ->
  main env argv st =
    (Returned 1,
     {| agent := agent st;
        trace := (trace st
                  ++ [StderrJson [("error", JString "No command provided")]])%list |}) /\
  stdout_of (trace (snd (main env argv st))) = stdout_of (trace st) /\
  constructions (trace (snd (main env argv st))) = constructions (trace st).
Proof.
  intros Hlen.
  assert (Hrun : main env argv st =
                 (Returned 1,
                  {| agent := agent st;
                     trace := (trace st
                               ++ [StderrJson [("error", JString "No command provided")]])%list |})).
  { unfold main. destruct (Nat.ltb_spec (length argv) 2) as [_|H]; [reflexivity | lia]. }
  rewrite Hrun. simpl. rewrite stdout_of_app, constructions_app. simpl.
  rewrite app_nil_r, Nat.add_0_r. repeat split.
Qed.

Lemma main_without_command_witness :
  length ["python_bridge.py"] < 2 /\
  fst (main Sample.good_env ["python_bridge.py"] initial) = Returned 1.
Proof.
  split; [simpl; lia|].
  destruct (main_without_command Sample.good_env ["python_bridge.py"] initial)
    as [Hrun _]; [simpl; lia|].
  rewrite Hrun. reflexivity.
Defined.

(** X2: [process_message] without a message: [main] prints
    [{error: "Message required for process_message command"}] and ends
    with status 0; no handler runs, so the constructor and the agent are
    not called and [agent] stays as it was. *)
Theorem process_message_without_message env prog st :
  main env [prog; "process_message"] st =
    (Returned 0,
     printed [("error", JString "Message required for process_message command")] st) /\
  constructions (trace (snd (main env [prog; "process_message"] st)))
    = constructions (trace st) /\
  occurrences is_call (trace (snd (main env [prog; "process_message"] st)))
    = occurrences is_call (trace st).
Proof.
  assert (Hrun : main env [prog; "process_message"] st =
                 (Returned 0,
                  printed [("error", JString "Message required for process_message command")] st))
    by reflexivity.
  rewrite Hrun. unfold printed. simpl.
  rewrite constructions_app, occurrences_app. unfold occurrences at 2. simpl.
  rewrite !Nat.add_0_r. repeat split.
Qed.



Lemma run_after_import env argv u :
  import_modules env = Returned u ->
  run env argv =
  (fst (main env argv
          {| agent := None;
             trace := [Stderr "Successfully imported intelligent agent modules"] |}),
   snd (main env argv
          {| agent := None;
             trace := [Stderr "Successfully imported intelligent agent modules"] |})).
Proof.
  intros Himp. unfold run, script. rewrite Himp.
  unfold bind at 1, emit at 1. simpl.
  destruct (main env argv _); reflexivity.
Qed.

(** X4: standard output and the exit status.  A run never writes text
    that is no JSON document on standard output and prints one document
    at most.  When it prints one, the imports had succeeded, a command was
    given and the status is 0.  When the status is 0, a document was
    printed, unless an exception outside [Exception] with status 0 ended
    the process. *)
Theorem printed_result_and_exit_status env argv :
  stdout_text_of (trace (snd (run env argv))) = [] /\
  length (stdout_of (trace (snd (run env argv)))) <= 1 /\
  (length (stdout_of (trace (snd (run env argv)))) = 1 ->
   fst (run env argv) = Returned 0 /\ accepts env argv = true) /\
  (exit_status (run env argv) = 0 ->
   length (stdout_of (trace (snd (run env argv)))) = 1 \/
   exists s, fst (run env argv) = Escaped s).
Proof.
  unfold accepts, exit_status.
  destruct (import_modules env) as [u|e|s] eqn:Himp.
  - rewrite (run_after_import env argv u Himp). simpl fst. simpl snd.
    destruct argv as [|prog [|command args]].
    + simpl. repeat split; try lia; discriminate.
    + simpl. repeat split; try lia; discriminate.
    + rewrite main_after_dispatch. simpl fst. simpl snd. simpl trace.
      destruct (dispatch_quiet env command args
                  {| agent := None;
                     trace := [Stderr "Successfully imported intelligent agent modules"] |})
        as ([Hout Htext] & _ & Hnot).
      simpl in Hout, Htext.
      destruct (dispatch env command args _) as [[r|e|s] st']; simpl fst in *;
        simpl snd in *.
      * unfold main_end. destruct (json_dumps r); simpl;
          rewrite stdout_of_app, stdout_text_of_app, Hout, Htext; simpl;
          repeat split; try lia; try discriminate; eauto.
      * exfalso. exact (Hnot e eq_refl).
      * simpl. rewrite stdout_of_app, stdout_text_of_app, Hout, Htext. simpl.
        repeat split; try lia; try discriminate; eauto.
  - unfold run, script. rewrite Himp. simpl. repeat split; try lia; discriminate.
  - unfold run, script. rewrite Himp. simpl.
    repeat split; try lia; try discriminate; eauto.
Qed.

Lemma printed_result_and_exit_status_witness :
  length (stdout_of (trace (snd (run Sample.good_env
                                   ["python_bridge.py"; "process_message"; "hi"])))) = 1 /\
  fst (run Sample.good_env ["python_bridge.py"; "process_message"; "hi"]) = Returned 0.
Proof.
  split; [reflexivity|].
  destruct (printed_result_and_exit_status Sample.good_env
              ["python_bridge.py"; "process_message"; "hi"]) as (_ & _ & H & _).
  apply H. reflexivity.
Defined.

(** X5: one run calls the constructor at most once and the agent at most
    once, opens at most one event loop, and closes every loop it opens. *)
Theorem run_budget env argv :
  constructions (trace (snd (run env argv))) <= 1 /\
  occurrences is_call (trace (snd (run env argv))) <= 1 /\
  occurrences is_loop_new (trace (snd (run env argv))) <= 1 /\
  occurrences is_loop_new (trace (snd (run env argv)))
    = occurrences is_loop_close (trace (snd (run env argv))).
Proof.
  destruct (import_modules env) as [u|e|s] eqn:Himp.
  - rewrite (run_after_import env argv u Himp). simpl snd.
    destruct argv as [|prog [|command args]].
    + unfold occurrences. simpl. repeat split; lia.
    + unfold occurrences. simpl. repeat split; lia.
    + rewrite main_after_dispatch.
      destruct (dispatch_quiet env command args
                  {| agent := None;
                     trace := [Stderr "Successfully imported intelligent agent modules"] |})
        as (_ & Hb & _).
      unfold within_budget in Hb. simpl in Hb. simpl snd. simpl trace.
      rewrite constructions_app, !occurrences_app.
      assert (Hend : forall out,
                 constructions (snd (main_end out)) = 0 /\
                 occurrences is_call (snd (main_end out)) = 0 /\
                 occurrences is_loop_new (snd (main_end out)) = 0 /\
                 occurrences is_loop_close (snd (main_end out)) = 0).
      { intros [r|e|s]; unfold main_end; [destruct (json_dumps r)| |];
          repeat split. }
      destruct (Hend (fst (dispatch env command args
                  {| agent := None;
                     trace := [Stderr "Successfully imported intelligent agent modules"] |})))
        as (H1 & H2 & H3 & H4).
      rewrite H1, H2, H3, H4.
      unfold occurrences in *. simpl in Hb. repeat split; lia.
  - unfold run, script. rewrite Himp. unfold occurrences. simpl. repeat split; lia.
  - unfold run, script. rewrite Himp. unfold occurrences. simpl. repeat split; lia.
Qed.

(** X6: one call of any handler, from any state, stays within the
    budget: at most one constructor call, one agent call and one event
    loop, and the loop is closed on every path out of the handler. *)
Theorem handler_budget env st message user_id :
  within_budget st (snd (process_message env message user_id st)) /\
  within_budget st (snd (clear_conversation env user_id st)) /\
  within_budget st (snd (get_help env st)) /\
  within_budget st (snd (test_tools env st)) /\
  within_budget st (snd (analyze_conversation env user_id st)).
Proof.
  split; [|split; [|split; [|split]]].
  - exact (serve_within_budget env (ProcessMessage message user_id) st).
  - exact (serve_within_budget env (ClearConversation user_id) st).
  - exact (serve_within_budget env GetHelp st).
  - exact (serve_within_budget env TestTools st).
  - exact (serve_within_budget env (AnalyzeConversation user_id) st).
Qed.

(** ** The life of the handle over several calls *)


Lemma serve_ready env rq st a :
  agent st = Some a ->
  agent (snd (serve env rq st)) = Some a /\
  constructions (trace (snd (serve env rq st))) = constructions (trace st).
Proof.
  intros Hag. destruct st as [ag tr]. simpl in Hag. subst ag.
  destruct rq as [message user_id|user_id| | |user_id]; simpl serve.
  - unfold process_message. run_handler.
    branch; rewrite ?constructions_app; simpl; split; (reflexivity || lia).
  - unfold clear_conversation. run_handler.
    branch; rewrite ?constructions_app; simpl; split; (reflexivity || lia).
  - unfold get_help. run_handler.
    branch; rewrite ?constructions_app; simpl; split; (reflexivity || lia).
  - unfold test_tools. run_handler. split; reflexivity.
  - unfold analyze_conversation. run_handler.
    branch; rewrite ?constructions_app; simpl; split; (reflexivity || lia).
Qed.

Lemma serve_fresh env rq st :
  agent st = None ->
  agent (snd (serve env rq st))
    = (if initialises rq
       then match new_IntelligentAgent env with
            | Returned a => Some a
            | Raised _ => None
            | Escaped _ => None
            end
       else None) /\
  constructions (trace (snd (serve env rq st)))
    = constructions (trace st) + (if initialises rq then 1 else 0).
Proof.
  intros Hag. destruct st as [ag tr]. simpl in Hag. subst ag.
  destruct rq as [message user_id|user_id| | |user_id]; simpl serve; simpl initialises.
  - unfold process_message. run_handler.
    branch; rewrite ?constructions_app; simpl; split; (reflexivity || lia).
  - unfold clear_conversation. run_handler.
    branch; rewrite ?constructions_app; simpl; split; (reflexivity || lia).
  - unfold get_help. run_handler.
    rewrite ?constructions_app; simpl; split; (reflexivity || lia).
  - unfold test_tools. run_handler. split; (reflexivity || lia).
  - unfold analyze_conversation. run_handler.
    branch; rewrite ?constructions_app; simpl; split; (reflexivity || lia).
Qed.

Lemma serve_all_ready env rqs st a :
  agent st = Some a ->
  agent (serve_all env rqs st) = Some a /\
  constructions (trace (serve_all env rqs st)) = constructions (trace st).
Proof.
  revert st. induction rqs as [|rq rest IH]; intros st Hag; simpl.
  - split; [exact Hag | reflexivity].
  - destruct (serve_ready env rq st a Hag) as [Hag' Hc].
    destruct (IH _ Hag') as [Hag'' Hc'].
    split; [exact Hag'' | rewrite Hc', Hc; reflexivity].
Qed.

(** X8: a handle that is there stays: over any sequence of handler
    calls [agent] keeps the same object and the constructor is not
    called. *)
Theorem ready_handle_is_kept env rqs st a :
  agent st = Some a ->
  agent (serve_all env rqs st) = Some a /\
  constructions (trace (serve_all env rqs st)) = constructions (trace st).
Proof. apply serve_all_ready. Qed.

Lemma ready_handle_is_kept_witness :
  agent (Sample.ready Sample.good_agent) = Some Sample.good_agent /\
  constructions
    (trace (serve_all Sample.broken_env
              [GetHelp; ProcessMessage "hi" None; ClearConversation None]
              (Sample.ready Sample.good_agent))) = 0.
Proof.
  split; [reflexivity|].
  apply (ready_handle_is_kept Sample.broken_env
           [GetHelp; ProcessMessage "hi" None; ClearConversation None]
           (Sample.ready Sample.good_agent) Sample.good_agent).
  reflexivity.
Defined.

(** X9: when the constructor succeeds, a sequence of handler calls that
    starts without a handle calls the constructor once if one of
    [process_message], [clear_conversation], [analyze_conversation] is
    among them, and never otherwise; the handle built by the first of
    them is the one left in [agent]. *)
Theorem constructed_once env rqs st a :
  agent st = None ->
  new_IntelligentAgent env = Returned a ->
  agent (serve_all env rqs st) = (if existsb initialises rqs then Some a else None) /\
  constructions (trace (serve_all env rqs st))
    = constructions (trace st) + (if existsb initialises rqs then 1 else 0).
Proof.
  intros Hag Hnew. revert st Hag.
  induction rqs as [|rq rest IH]; intros st Hag; simpl.
  - split; [exact Hag | lia].
  - destruct (serve_fresh env rq st Hag) as [Hag' Hc]. rewrite Hnew in Hag'.
    destruct (initialises rq); simpl.
    + destruct (serve_all_ready env rest _ a Hag') as [Hkeep Hsame].
      split; [exact Hkeep | rewrite Hsame, Hc; reflexivity].
    + destruct (IH _ Hag') as [Hrest Hcount].
      split; [exact Hrest | rewrite Hcount, Hc; lia].
Qed.

Lemma constructed_once_witness :
  agent initial = None /\
  agent (serve_all Sample.good_env
           [TestTools; AnalyzeConversation None; ProcessMessage "hi" None; GetHelp]
           initial) = Some Sample.good_agent /\
  constructions
    (trace (serve_all Sample.good_env
              [TestTools; AnalyzeConversation None; ProcessMessage "hi" None; GetHelp]
              initial)) = 1.
Proof.
  split; [reflexivity|].
  apply (constructed_once Sample.good_env
           [TestTools; AnalyzeConversation None; ProcessMessage "hi" None; GetHelp]
           initial Sample.good_agent); reflexivity.
Defined.

(** X10: a failed construction is not remembered.  While the constructor
    raises, [agent] stays [None] and every call of [process_message],
    [clear_conversation] or [analyze_conversation] calls the constructor
    again: as many constructor calls as such handler calls. *)
Theorem failed_construction_is_retried env rqs st e :
  agent st = None ->
  new_IntelligentAgent env = Raised e ->
  agent (serve_all env rqs st) = None /\
  constructions (trace (serve_all env rqs st))
    = constructions (trace st) + length (filter initialises rqs).
Proof.
  intros Hag Hnew. revert st Hag.
  induction rqs as [|rq rest IH]; intros st Hag; simpl.
  - split; [exact Hag | lia].
  - destruct (serve_fresh env rq st Hag) as [Hag' Hc]. rewrite Hnew in Hag'.
    assert (Hnone : agent (snd (serve env rq st)) = None)
      by (destruct (initialises rq); exact Hag').
    destruct (IH _ Hnone) as [Hrest Hcount].
    split; [exact Hrest|]. rewrite Hcount, Hc.
    destruct (initialises rq); simpl; lia.
Qed.

Lemma failed_construction_is_retried_witness :
  agent initial = None /\
  constructions
    (trace (serve_all Sample.broken_env
              [ProcessMessage "hi" None; GetHelp; ClearConversation None;
               AnalyzeConversation (Some "bob")]
              initial)) = 3.
Proof.
  split; [reflexivity|].
  apply (failed_construction_is_retried Sample.broken_env
           [ProcessMessage "hi" None; GetHelp; ClearConversation None;
            AnalyzeConversation (Some "bob")]
           initial "missing API key"); reflexivity.
Defined.

(** ** What the handlers make of the agent's answers *)







(** X14: a missing key of the analysis.  When the analysis lacks
    [has_conversation], or has it true and lacks one of [summary],
    [topics], [sentiment], [insights], [recent_messages], the Result is
    an error naming the first key that is read and not found, in quotes
    as [KeyError] prints it. *)
Theorem analyze_conversation_missing_key env st a user_id an key :
  handle_for env st = Some a ->
  memory_analyze_conversation a (default_arg user_id "web-user") = Returned an ->
  missing_key an = Some key ->
  fst (analyze_conversation env user_id st) =
    Returned [("error", JString ("'" ++ key ++ "'"));
              ("response",
               JString ("I encountered an error while analyzing our conversation: '"
                        ++ key ++ "'"))].
Proof.
  intros Hh Hmem.
  rewrite (analyze_conversation_answer env st a user_id an Hh Hmem).
  unfold missing_key.
  destruct (has_conversation an) as [[|]|];
    [|discriminate|intros [= <-]; reflexivity].
  destruct (summary an) as [s|]; [|intros [= <-]; reflexivity].
  destruct (topics an) as [t|]; [|intros [= <-]; reflexivity].
  destruct (sentiment an) as [se|]; [|intros [= <-]; reflexivity].
  destruct (insights an) as [ins|]; [|intros [= <-]; reflexivity].
  destruct (recent_messages an) as [msgs|]; [discriminate|intros [= <-]; reflexivity].
Qed.

Lemma analyze_conversation_missing_key_witness :
  handle_for MoreSamples.partial_env initial = Some MoreSamples.partial_agent /\
  missing_key MoreSamples.partial_history = Some "topics" /\
  fst (analyze_conversation MoreSamples.partial_env None initial) =
    Returned [("error", JString "'topics'");
              ("response",
               JString "I encountered an error while analyzing our conversation: 'topics'")].
Proof.
  split; [reflexivity | split; [reflexivity|]].
  exact (analyze_conversation_missing_key MoreSamples.partial_env initial
           MoreSamples.partial_agent None MoreSamples.partial_history "topics"
           eq_refl eq_refl eq_refl).
Defined.

(** ** Commands that cannot succeed from the command line *)

(** X15: [get_help] from the command line.  The process starts with
    [agent = None] and [get_help] does not build the agent, so for every
    environment and whatever the arguments the run prints the error of
    the attribute access on [None], with status 0; the constructor and
    the agent are not called, the loop is opened and closed. *)
Theorem get_help_from_command_line env prog args :
  import_modules env = Returned tt ->
  run env (prog :: "get_help" :: args) =
    (Returned 0,
     {| agent := None;
        trace := [Stderr "Successfully imported intelligent agent modules";
                  LoopNew; LoopClose;
                  Stderr "Error getting help: 'NoneType' object has no attribute 'get_help_message'";
                  StdoutJson
                    [("error", JString "'NoneType' object has no attribute 'get_help_message'");
                     ("response", JString "I encountered an error while getting help: 'NoneType' object has no attribute 'get_help_message'")]] |}).
Proof.
  intros Himp. rewrite (run_after_import env _ tt Himp).
  rewrite main_after_dispatch. reflexivity.
Qed.

Lemma get_help_from_command_line_witness :
  exit_status (run Sample.good_env ["python_bridge.py"; "get_help"]) = 0 /\
  constructions (trace (snd (run Sample.good_env ["python_bridge.py"; "get_help"]))) = 0.
Proof.
  rewrite (get_help_from_command_line Sample.good_env "python_bridge.py" [] eq_refl).
  split; reflexivity.
Defined.

(** X16: [test_tools] from the command line.  The process starts with
    [agent = None] and [test_tools] does not build the agent, so for
    every environment and whatever the arguments the run prints
    [{error: "Agent not initialized", success: false}], with status 0:
    the table of tool results is never reached. *)
Theorem test_tools_from_command_line env prog args :
  import_modules env = Returned tt ->
  run env (prog :: "test_tools" :: args) =
    (Returned 0,
     {| agent := None;
        trace := [Stderr "Successfully imported intelligent agent modules";
                  StdoutJson [("error", JString "Agent not initialized");
                              ("success", JBool false)]] |}).
Proof.
  intros Himp. rewrite (run_after_import env _ tt Himp).
  rewrite main_after_dispatch. reflexivity.
Qed.

Lemma test_tools_from_command_line_witness :
  stdout_of (trace (snd (run Sample.good_env ["python_bridge.py"; "test_tools"; "x"])))
    = [[("error", JString "Agent not initialized"); ("success", JBool false)]].
Proof.
  rewrite (test_tools_from_command_line Sample.good_env "python_bridge.py" ["x"] eq_refl).
  reflexivity.
Defined.

(** ** The report on empty lists *)

(** X17: an analysis with a history but with no topics, no insights and
    no recent messages still gives the whole report: every heading is
    there, the topics line is an empty bullet, the insights and the
    recent-messages headings have nothing under them, and the closing
    summary counts "0 main topics".  Tone and engagement level are put in
    title case by [str.title()], the interpreter's own casing where they
    have characters outside ASCII. *)
Theorem report_of_empty_lists env st a user_id an s se :
  handle_for env st = Some a ->
  memory_analyze_conversation a (default_arg user_id "web-user") = Returned an ->
  an = {| has_conversation := Some true; summary := Some s; topics := Some [];
          sentiment := Some se; insights := Some []; recent_messages := Some [] |} ->
  fst (analyze_conversation env user_id st) =
    Returned
      [("response",
        JString
          (PyStr.join PyStr.nl
             ["🧠 **Conversation Analysis Report** 📊";
              "";
              "📈 **Conversation Statistics:**";
              "• **Total Messages:** " ++ format (total_messages s);
              "• **Your Messages:** " ++ format (user_messages s);
              "• **My Responses:** " ++ format (assistant_messages s);
              "• **Duration:** " ++ format (conversation_duration_hours s) ++ " hours";
              "• **Started:** " ++ format (conversation_start s);
              "• **Last Activity:** " ++ format (last_activity s);
              "";
              "🎯 **Topics Discussed:**";
              "• ";
              "";
              "😊 **Sentiment Analysis:**";
              "• **Overall Tone:** "
                ++ PyStr.title (unicode_title env) (overall_sentiment se);
              "• **Engagement Level:** "
                ++ PyStr.title (unicode_title env) (engagement_level se);
              "• **Questions Asked:** " ++ format (question_count se);
              "";
              "💡 **Key Insights:**";
              "";
              "🔄 **Recent Messages:**";
              "";
              "💭 **Analysis Summary:**";
              "This conversation shows " ++ engagement_level se
                ++ " engagement with a " ++ overall_sentiment se ++ " tone. ";
              "We've covered 0 main topics over "
                ++ format (conversation_duration_hours s) ++ " hours. ";
              "I'm here to continue helping you with any questions or tasks! 🚀"]));
       ("success", JBool true)].
Proof.
  intros Hh Hmem Han.
  rewrite (analyze_conversation_answer env st a user_id an Hh Hmem), Han.
  reflexivity.
Qed.

Lemma report_of_empty_lists_witness :
  handle_for MoreSamples.empty_env initial = Some MoreSamples.empty_agent /\
  exists text,
    fst (analyze_conversation MoreSamples.empty_env None initial) =
      Returned [("response", JString text); ("success", JBool true)] /\
    PyStr.contains "We've covered 0 main topics over 0.0 hours. " text = true.
Proof.
  split; [reflexivity|].
  pose proof (report_of_empty_lists MoreSamples.empty_env initial MoreSamples.empty_agent
                None MoreSamples.empty_history _ _ eq_refl eq_refl eq_refl) as H.
  eexists. split; [exact H | reflexivity].
Defined.

(** ** Answers and faults outside the agent's interface *)

(** The casing of text outside ASCII is the interpreter's. *)
Example title_outside_ascii (casing : string -> string) :
  PyStr.title casing "web_search" = "Web_Search" /\
  PyStr.title casing "très positive" = casing "très positive".
Proof. split; reflexivity. Qed.



(** X19: an answer [json.dumps] cannot write.  [clear_conversation]
    returns it in a Result with [success: true]; [main] then fails to
    print the Result, writes the TypeError on standard error and ends
    with status 1, with nothing on standard output. *)
Theorem refused_answer_is_reported env prog st a user_id response why :
  handle_for env st = Some a ->
  agent_clear_conversation a user_id = Returned response ->
  refusal (value_of response) = Some why ->
  clear_conversation env (Some user_id) st =
    (Returned [("response", value_of response); ("success", JBool true)],
     {| agent := Some a;
        trace := (trace (after_guard env st)
                  ++ [Call "clear_conversation" [user_id]])%list |}) /\
  main env [prog; "clear_conversation"; user_id] st =
    (Returned 1,
     {| agent := Some a;
        trace := (trace (after_guard env st)
                  ++ [Call "clear_conversation" [user_id];
                      StderrJson [("error", JString why)]])%list |}).
Proof.
  intros Hh Hr Hwhy.
  assert (Hclear : clear_conversation env (Some user_id) st =
                   (Returned [("response", value_of response); ("success", JBool true)],
                    {| agent := Some a;
                       trace := (trace (after_guard env st)
                                 ++ [Call "clear_conversation" [user_id]])%list |})).
  { destruct st as [ag tr]. unfold after_guard.
    destruct (handle_for_cases _ _ _ Hh) as [Hag | [Hag Hnew]]; simpl in Hag; subst ag.
    - unfold clear_conversation. run_handler. rewrite Hr. reflexivity.
    - unfold clear_conversation. run_handler. rewrite Hnew. simpl. rewrite Hr.
      simpl. rewrite <- ?app_assoc. reflexivity. }
  split; [exact Hclear|].
  rewrite main_after_dispatch.
  change (dispatch env "clear_conversation" [user_id] st)
    with (clear_conversation env (Some user_id) st).
  rewrite Hclear. simpl. unfold main_end, json_dumps. simpl. rewrite Hwhy. simpl.
  rewrite <- app_assoc. reflexivity.
Qed.

Lemma refused_answer_is_reported_witness :
  handle_for Unruly.bytes_env initial = Some Unruly.bytes_agent /\
  fst (main Unruly.bytes_env ["python_bridge.py"; "clear_conversation"; "bob"] initial)
    = Returned 1 /\
  stdout_of (trace (snd (main Unruly.bytes_env
                           ["python_bridge.py"; "clear_conversation"; "bob"] initial)))
    = [].
Proof.
  split; [reflexivity|].
  destruct (refused_answer_is_reported Unruly.bytes_env "python_bridge.py" initial
              Unruly.bytes_agent "bob" Unruly.bytes_answer
              "Object of type bytes is not JSON serializable"
              eq_refl eq_refl eq_refl) as [_ Hmain].
  rewrite Hmain. split; reflexivity.
Defined.


